(** * XrdCmsRedirLocal: the redirect-to-local decision of the cms client plug-in

    A shallow embedding of [src/XrdCmsRedirLocal.cc].  The plug-in wraps the
    regular cms finder ([nativeCmsFinder]) and answers a [Locate] request
    either with the finder's own answer or, when client and target both sit
    on private networks, with the local physical path of the file.

    Conventions of the embedding:
    - a C [int] is a [Z]; the code only compares ints and masks one with
      [0x0000ffff], so no wrap-around arises;
    - a [const char *] that may be nil is an [option string];
    - the by-reference response object [Resp] is passed in and handed back
      next to the return code;
    - the fields of the plug-in object are the state of a small monad that
      also logs every call made to a collaborator (finder, address
      classifier, storage system);
    - the pointers [EnvInfo], [EnvInfo->secEnv()], [addrInfo] and [theSS]
      are taken to be valid, as [Locate] dereferences them unchecked. *)

From Stdlib Require Import ZArith String Ascii List Bool Lia Permutation.
Import ListNotations.
Open Scope Z_scope.

(** ** Constants of XrdSfs/XrdSfsInterface.hh used by the plug-in *)

Definition SFS_OK : Z := 0.
Definition SFS_ERROR : Z := -1.
Definition SFS_REDIRECT : Z := -256.
Definition SFS_O_RDONLY : Z := 0.
Definition SFS_O_WRONLY : Z := 1.
Definition SFS_O_RDWR : Z := 2.
Definition SFS_O_CREAT : Z := 0x100.
Definition SFS_O_TRUNC : Z := 0x200.

(** ** XrdOucErrInfo: the response object *)

Record XrdOucErrInfo : Type := mkErrInfo {
  ErrCode : Z;
  ErrText : string;
  ErrUCap : Z
}.

Definition getErrText (Resp : XrdOucErrInfo) : string := ErrText Resp.
Definition getUCap (Resp : XrdOucErrInfo) : Z := ErrUCap Resp.

(** Modelled from the spec: [XrdOucErrInfo::setErrInfo] (a code and a text) is
    declared in XRootD's headers, which are not under src/.  It stores the
    code and copies the text; for a nil text the spec (section 9) speaks of a
    response "with a default-constructed/empty path", so nil is stored as the
    empty text. *)
Definition setErrInfo (code : Z) (emsg : option string) (Resp : XrdOucErrInfo)
  : XrdOucErrInfo :=
  {| ErrCode := code;
     ErrText := match emsg with Some m => m | None => EmptyString end;
     ErrUCap := ErrUCap Resp |}.

(** Modelled from the spec: section 3 gives the locate result a status
    [enum{Ok, Error}]; in the source it is the integer the finder returns. *)
Inductive LocateStatus : Type := Ok | Error.

Definition status_of (rcode : Z) : LocateStatus :=
  if rcode =? SFS_OK then Ok else Error.

(** ** Network addresses

    [XrdNetAddr] and [XrdNetAddrInfo] belong to XRootD; the plug-in uses two of
    their operations, which are kept abstract. *)

Class XrdNetAddrInfo (A : Type) : Type := {
  (** [XrdNetAddr target(-1); target.Set(text)] *)
  addr_Set : string -> A;
  isPrivate : A -> bool
}.

Record XrdSecEntity (A : Type) : Type := mkSecEntity { addrInfo : A }.
Record XrdOucEnv (A : Type) : Type := mkEnv { secEnv : XrdSecEntity A }.
Arguments addrInfo {A} _.
Arguments secEnv {A} _.
Arguments mkSecEntity {A} _.
Arguments mkEnv {A} _.

(** ** Collaborators *)

(** The interface [XrdCmsClient], as far as the plug-in calls it on the
    wrapped finder. *)
Record XrdCmsClient (A : Type) : Type := mkCmsClient {
  cms_Configure : string -> option string -> XrdOucEnv A -> Z;
  cms_Locate : XrdOucErrInfo -> string -> Z -> XrdOucEnv A -> Z * XrdOucErrInfo;
  cms_Space : XrdOucErrInfo -> string -> XrdOucEnv A -> Z * XrdOucErrInfo
}.
Arguments cms_Configure {A} _.
Arguments cms_Locate {A} _.
Arguments cms_Space {A} _.
Arguments mkCmsClient {A} _ _ _.

(** [XrdOss::Lfn2Pfn(Path, buff, blen, rc)]: the physical path (nil when the
    name cannot be translated) and the error code left in [rc]. *)
Record XrdOss : Type := mkOss {
  Lfn2Pfn : string -> Z -> option string * Z
}.

(** Who an address belongs to, for the log of classifier calls. *)
Inductive Party : Type := Target | Client.

(** Calls to collaborators, in the order the plug-in makes them. *)
Inductive Call : Type :=
| CallConfigure (cfn : string)
| CallLocate (path : string) (flags : Z)
| CallSpace (path : string)
| CallSet (text : string)
| CallIsPrivate (who : Party)
| CallLfn2Pfn (path : string) (blen : Z).

(** ** The plug-in object and its monad *)

Record XrdCmsRedirLocal (A : Type) : Type := mkPlugin {
  nativeCmsFinder : option (XrdCmsClient A);
  theSS : XrdOss;
  readOnlyredirect : bool
}.
Arguments nativeCmsFinder {A} _.
Arguments theSS {A} _.
Arguments readOnlyredirect {A} _.
Arguments mkPlugin {A} _ _ _.

Definition M (A X : Type) : Type :=
  XrdCmsRedirLocal A -> X * XrdCmsRedirLocal A * list Call.

Definition ret {A X} (x : X) : M A X := fun this => (x, this, []).

Definition bind {A X Y} (m : M A X) (k : X -> M A Y) : M A Y :=
  fun this =>
    let r1 := m this in
    let r2 := k (fst (fst r1)) (snd (fst r1)) in
    (fst (fst r2), snd (fst r2), snd r1 ++ snd r2).

Definition field {A X} (f : XrdCmsRedirLocal A -> X) : M A X :=
  fun this => (f this, this, []).

Definition set_readOnlyredirect {A} (b : bool) : M A unit :=
  fun this =>
    (tt, mkPlugin (nativeCmsFinder this) (theSS this) b, []).

(** A call to a collaborator: logged, its result handed on. *)
Definition calling {A X} (c : Call) (x : X) : M A X := fun this => (x, this, [c]).

Notation "x <- m ;; k" := (bind m (fun x => k))
  (at level 61, m at next level, right associativity).
Notation "' pat <- m ;; k" := (bind m (fun x => match x with pat => k end))
  (at level 61, pat pattern, m at next level, right associativity).

(** The three components of a run. *)
Definition value {A X} (r : X * XrdCmsRedirLocal A * list Call) : X := fst (fst r).
Definition after {A X} (r : X * XrdCmsRedirLocal A * list Call)
  : XrdCmsRedirLocal A := snd (fst r).
Definition calls {A X} (r : X * XrdCmsRedirLocal A * list Call) : list Call := snd r.

Section Plugin.

Context {A : Type} `{XrdNetAddrInfo A}.

(** ** XrdCmsRedirLocal::Locate *)

Definition Locate (Resp : XrdOucErrInfo) (path : string) (flags : Z)
    (EnvInfo : XrdOucEnv A) : M A (Z * XrdOucErrInfo) :=
  let rcode := 0 in
  finder <- field nativeCmsFinder ;;
  match finder with
  | Some finder =>
      (* get regular target host *)
      '(rcode, Resp) <- calling (CallLocate path flags)
                          (cms_Locate finder Resp path flags EnvInfo) ;;
      (* define target host from locate result *)
      target <- calling (CallSet (getErrText Resp)) (addr_Set (getErrText Resp)) ;;
      (* does the target host have a private IP? *)
      targetPrivate <- calling (CallIsPrivate Target) (isPrivate target) ;;
      if negb targetPrivate then ret (rcode, Resp) else
      (* does the client host have a private IP? *)
      clientPrivate <- calling (CallIsPrivate Client)
                         (isPrivate (addrInfo (secEnv EnvInfo))) ;;
      if negb clientPrivate then ret (rcode, Resp) else
      (* protocol version, to do a native redirect for an old one *)
      let pversion := getUCap Resp in
      let pversion := Z.land pversion 0x0000ffff in
      if pversion <? 784 then ret (rcode, Resp) else
      (* RDONLY, WRONLY, RDWR, CREAT, TRUNC are allowed *)
      if flags >? 0x200 then ret (rcode, Resp) else
      (* native function if readOnlyredirect is configured and a non
         readonly flag is passed *)
      readOnly <- field readOnlyredirect ;;
      if readOnly && negb (flags =? SFS_O_RDONLY) then ret (rcode, Resp) else
      (* passed all checks *)
      let maxPathLength := 4096 in
      ss <- field theSS ;;
      '(ppath, rc) <- calling (CallLfn2Pfn path maxPathLength)
                        (Lfn2Pfn ss path maxPathLength) ;;
      (* set info which will be sent to client *)
      let Resp := setErrInfo (-1) ppath Resp in
      ret (SFS_REDIRECT, Resp)
  | None => ret (rcode, Resp)
  end.

(** ** XrdCmsRedirLocal::Space *)

Definition Space (Resp : XrdOucErrInfo) (path : string) (EnvInfo : XrdOucEnv A)
  : M A (Z * XrdOucErrInfo) :=
  finder <- field nativeCmsFinder ;;
  match finder with
  | Some finder => calling (CallSpace path) (cms_Space finder Resp path EnvInfo)
  | None => ret (0, Resp)
  end.

(** ** XrdCmsRedirLocal::XrdCmsRedirLocal

    The constructor creates the finder itself ([new XrdCmsFinderRMT]); here
    the created finder is an argument. *)

Definition constructor (finder : XrdCmsClient A) (theSS : XrdOss)
  : XrdCmsRedirLocal A :=
  mkPlugin (Some finder) theSS false.

End Plugin.

(** ** Configuration

    [XrdOucStream] hands out the words of a configuration file line by line:
    [GetFirstWord] moves to the first word of the next line that has one,
    [GetWord] gives the next word of that line or nil at its end; called with
    [true], both return the word in lower case.  A file is modelled by its
    lines, each the list of its words. *)

Definition Line : Type := list string.
Definition ConfigFile : Type := list Line.

(** What [open(filename, O_RDONLY, 0)] finds: nothing when it fails. *)
Definition FileSystem : Type := string -> option ConfigFile.

Definition tolower (c : ascii) : ascii :=
  let n := nat_of_ascii c in
  if ((65 <=? n) && (n <=? 90))%nat then ascii_of_nat (n + 32) else c.

Fixpoint lowcase (s : string) : string :=
  match s with
  | EmptyString => EmptyString
  | String c s' => String (tolower c) (lowcase s')
  end.

(** [s.find(needle) != string::npos] *)
Fixpoint find (needle s : string) : bool :=
  String.prefix needle s
  || match s with
     | EmptyString => false
     | String _ s' => find needle s'
     end.

(** [strcmp(a, b) == 0] *)
Definition strcmp_eq0 (a b : string) : bool := String.eqb a b.

(** How [loadConfig] ends: the file could not be opened, the stream was read
    to its end and closed, or [std::string] was built from the nil that
    [GetWord] returns at the end of a line. *)
Inductive ConfigOutcome : Type := NotOpened | Closed | NilString.

Section Config.

Context {A : Type}.

(** The [while] loop of [loadConfig]; one round per line with a word. *)
Fixpoint loadConfig_loop (Config : ConfigFile) : M A ConfigOutcome :=
  match Config with
  | [] => ret Closed
  | [] :: Config => loadConfig_loop Config
  | (word :: words) :: Config =>
      (* get word in lower case *)
      let word := lowcase word in
      if strcmp_eq0 word "XrdCmsRedirLocal.readonlyredirect" then
        (* get next word in lower case *)
        match words with
        | [] => ret NilString
        | readWord :: _ =>
            let readWord := lowcase readWord in
            _ <- (if find "true" readWord
                  then set_readOnlyredirect true
                  else set_readOnlyredirect false) ;;
            loadConfig_loop Config
        end
      else loadConfig_loop Config
  end.

(** ** XrdCmsRedirLocal::loadConfig *)

Definition loadConfig (fs : FileSystem) (filename : string) : M A ConfigOutcome :=
  match fs filename with
  | None => ret NotOpened
  | Some Config => loadConfig_loop Config
  end.

(** ** XrdCmsRedirLocal::Configure

    [None] stands for the exception of [loadConfig] passing through. *)

Definition Configure (fs : FileSystem) (cfn : string) (Parms : option string)
    (EnvInfo : XrdOucEnv A) : M A (option Z) :=
  loaded <- loadConfig fs cfn ;;
  match loaded with
  | NilString => ret None
  | _ =>
      finder <- field nativeCmsFinder ;;
      match finder with
      | Some finder =>
          calling (CallConfigure cfn)
                  (Some (cms_Configure finder cfn Parms EnvInfo))
      | None => ret (Some 0)
      end
  end.

End Config.

(** How often a run called [Lfn2Pfn]. *)
Definition is_Lfn2Pfn (c : Call) : bool :=
  match c with
  | CallLfn2Pfn _ _ => true
  | _ => false
  end.

Definition translations (log : list Call) : nat :=
  List.length (filter is_Lfn2Pfn log).

(** ** The gates of [Locate], one by one

    Each [return rcode] of [Locate] is guarded by one condition.  [rejects]
    names these conditions; [Locate_in_order] is [Locate] with the guards
    evaluated in a given order, to compare orders of evaluation. *)

Inductive Gate : Type :=
| TargetGate | ClientGate | VersionGate | FlagsGate | ReadOnlyGate.

Definition Locate_order : list Gate :=
  [TargetGate; ClientGate; VersionGate; FlagsGate; ReadOnlyGate].

Section Gates.

Context {A : Type} `{XrdNetAddrInfo A}.

(** The condition of a gate, on the response the finder left in [Resp]. *)
Definition rejects (readOnly : bool) (Resp : XrdOucErrInfo) (flags : Z)
    (EnvInfo : XrdOucEnv A) (g : Gate) : bool :=
  match g with
  | TargetGate => negb (isPrivate (addr_Set (getErrText Resp)))
  | ClientGate => negb (isPrivate (addrInfo (secEnv EnvInfo)))
  | VersionGate => Z.land (getUCap Resp) 0x0000ffff <? 784
  | FlagsGate => flags >? 0x200
  | ReadOnlyGate => readOnly && negb (flags =? SFS_O_RDONLY)
  end.

(** Evaluating one gate, with the calls it makes. *)
Definition evaluate (Resp : XrdOucErrInfo) (flags : Z) (EnvInfo : XrdOucEnv A)
    (g : Gate) : M A bool :=
  match g with
  | TargetGate =>
      target <- calling (CallSet (getErrText Resp)) (addr_Set (getErrText Resp)) ;;
      targetPrivate <- calling (CallIsPrivate Target) (isPrivate target) ;;
      ret (negb targetPrivate)
  | ClientGate =>
      clientPrivate <- calling (CallIsPrivate Client)
                         (isPrivate (addrInfo (secEnv EnvInfo))) ;;
      ret (negb clientPrivate)
  | VersionGate => ret (Z.land (getUCap Resp) 0x0000ffff <? 784)
  | FlagsGate => ret (flags >? 0x200)
  | ReadOnlyGate =>
      readOnly <- field readOnlyredirect ;;
      ret (readOnly && negb (flags =? SFS_O_RDONLY))
  end.

(** The end of [Locate], once every check has passed. *)
Definition redirect_local (Resp : XrdOucErrInfo) (path : string)
  : M A (Z * XrdOucErrInfo) :=
  let maxPathLength := 4096 in
  ss <- field theSS ;;
  '(ppath, rc) <- calling (CallLfn2Pfn path maxPathLength)
                    (Lfn2Pfn ss path maxPathLength) ;;
  let Resp := setErrInfo (-1) ppath Resp in
  ret (SFS_REDIRECT, Resp).

Fixpoint through_gates (gs : list Gate) (rcode : Z) (Resp : XrdOucErrInfo)
    (path : string) (flags : Z) (EnvInfo : XrdOucEnv A)
  : M A (Z * XrdOucErrInfo) :=
  match gs with
  | [] => redirect_local Resp path
  | g :: gs =>
      rejected <- evaluate Resp flags EnvInfo g ;;
      if rejected then ret (rcode, Resp)
      else through_gates gs rcode Resp path flags EnvInfo
  end.

Definition Locate_in_order (gs : list Gate) (Resp : XrdOucErrInfo)
    (path : string) (flags : Z) (EnvInfo : XrdOucEnv A)
  : M A (Z * XrdOucErrInfo) :=
  finder <- field nativeCmsFinder ;;
  match finder with
  | Some finder =>
      '(rcode, Resp) <- calling (CallLocate path flags)
                          (cms_Locate finder Resp path flags EnvInfo) ;;
      through_gates gs rcode Resp path flags EnvInfo
  | None => ret (0, Resp)
  end.

(** The two answers of [Locate], in the words of the spec: the finder's
    answer as it is, and the redirect to the local path. *)
Definition RemoteRedirect (finder : XrdCmsClient A) (Resp : XrdOucErrInfo)
    (path : string) (flags : Z) (EnvInfo : XrdOucEnv A) : Z * XrdOucErrInfo :=
  cms_Locate finder Resp path flags EnvInfo.

Definition LocalRedirect (ss : XrdOss) (finder : XrdCmsClient A)
    (Resp : XrdOucErrInfo) (path : string) (flags : Z) (EnvInfo : XrdOucEnv A)
  : Z * XrdOucErrInfo :=
  (SFS_REDIRECT,
   setErrInfo (-1) (fst (Lfn2Pfn ss path 4096))
              (snd (cms_Locate finder Resp path flags EnvInfo))).

(** Some gate rejects the request, given the finder's answer. *)
Definition rejected (this : XrdCmsRedirLocal A) (finder : XrdCmsClient A)
    (Resp : XrdOucErrInfo) (path : string) (flags : Z) (EnvInfo : XrdOucEnv A)
    (gs : list Gate) : bool :=
  existsb (rejects (readOnlyredirect this)
                   (snd (cms_Locate finder Resp path flags EnvInfo))
                   flags EnvInfo) gs.

(** The answer of the finder the plug-in holds, if it holds one. *)
Definition located (this : XrdCmsRedirLocal A) (Resp : XrdOucErrInfo)
    (path : string) (flags : Z) (EnvInfo : XrdOucEnv A)
  : option (Z * XrdOucErrInfo) :=
  option_map (fun finder => cms_Locate finder Resp path flags EnvInfo)
             (nativeCmsFinder this).

End Gates.

(** ** The plug-in in use *)

Section InUse.

Context {A : Type} `{XrdNetAddrInfo A}.

(** *** XrdCmsGetClient

    The entry point creates the plug-in, whose constructor creates the
    finder: [new XrdCmsFinderRMT(Logger, opMode, myPort)].  The class of the
    finder belongs to XRootD; what its constructor builds is an argument. *)
Definition XrdCmsGetClient {L : Type}
    (XrdCmsFinderRMT : L -> Z -> Z -> XrdCmsClient A)
    (Logger : L) (opMode myPort : Z) (theSS : XrdOss) : XrdCmsRedirLocal A :=
  constructor (XrdCmsFinderRMT Logger opMode myPort) theSS.

(** The conditions under which no [return rcode] of [Locate] is taken, on the
    response [answer] the finder left. *)
Definition qualifies (readOnly : bool) (answer : XrdOucErrInfo) (flags : Z)
    (EnvInfo : XrdOucEnv A) : Prop :=
  isPrivate (addr_Set (getErrText answer)) = true
  /\ isPrivate (addrInfo (secEnv EnvInfo)) = true
  /\ 784 <= Z.land (getUCap answer) 0x0000ffff
  /\ flags <= 0x200
  /\ (readOnly = false \/ flags = SFS_O_RDONLY).

(** The calls the framework makes on the plug-in once it is loaded. *)
Inductive Request : Type :=
| DoConfigure (fs : FileSystem) (cfn : string) (Parms : option string)
              (EnvInfo : XrdOucEnv A)
| DoLocate (Resp : XrdOucErrInfo) (path : string) (flags : Z)
           (EnvInfo : XrdOucEnv A)
| DoSpace (Resp : XrdOucErrInfo) (path : string) (EnvInfo : XrdOucEnv A).

Definition serve (r : Request) : M A unit :=
  match r with
  | DoConfigure fs cfn Parms EnvInfo =>
      _ <- Configure fs cfn Parms EnvInfo ;; ret tt
  | DoLocate Resp path flags EnvInfo =>
      _ <- Locate Resp path flags EnvInfo ;; ret tt
  | DoSpace Resp path EnvInfo =>
      _ <- Space Resp path EnvInfo ;; ret tt
  end.

Fixpoint serve_all (rs : list Request) : M A unit :=
  match rs with
  | [] => ret tt
  | r :: rs => _ <- serve r ;; serve_all rs
  end.

(** The calls a run of requests hands on to the finder, one per request. *)
Definition forwarded (r : Request) : Call :=
  match r with
  | DoConfigure _ cfn _ _ => CallConfigure cfn
  | DoLocate _ path flags _ => CallLocate path flags
  | DoSpace _ path _ => CallSpace path
  end.

Definition to_finder (c : Call) : bool :=
  match c with
  | CallConfigure _ | CallLocate _ _ | CallSpace _ => true
  | _ => false
  end.

End InUse.

(** ** A sample installation

    The worked examples need concrete collaborators: addresses written as
    dotted quads with the private ranges of RFC 1918, a finder that answers
    with a fixed code, port and host, and a storage system that prepends its
    local root and fails when the result does not fit the buffer. *)

Inductive IPv4 : Type :=
| Quad (a b c d : Z)
| Unresolved.

Definition digit (c : ascii) : option Z :=
  let n := Z.of_nat (nat_of_ascii c) in
  if (48 <=? n) && (n <=? 57) then Some (n - 48) else None.

Fixpoint octets (s : string) (cur : option Z) (acc : list Z) : option (list Z) :=
  match s with
  | EmptyString =>
      match cur with
      | Some n => Some (acc ++ [n])
      | None => None
      end
  | String c s' =>
      if Ascii.eqb c "."%char then
        match cur with
        | Some n => octets s' None (acc ++ [n])
        | None => None
        end
      else
        match digit c with
        | Some d =>
            octets s' (Some (10 * match cur with Some n => n | None => 0 end + d))
                   acc
        | None => None
        end
  end.

Definition IPv4_Set (text : string) : IPv4 :=
  match octets text None [] with
  | Some [a; b; c; d] =>
      if forallb (fun o => o <=? 255) [a; b; c; d] then Quad a b c d
      else Unresolved
  | _ => Unresolved
  end.

Definition IPv4_isPrivate (addr : IPv4) : bool :=
  match addr with
  | Quad a b _ _ =>
      (a =? 10) || ((a =? 172) && (16 <=? b) && (b <=? 31))
      || ((a =? 192) && (b =? 168))
  | Unresolved => false
  end.

#[export] Instance IPv4_NetAddrInfo : XrdNetAddrInfo IPv4 :=
  {| addr_Set := IPv4_Set; isPrivate := IPv4_isPrivate |}.

(** A client connected from [host]. *)
Definition client_at (host : string) : XrdOucEnv IPv4 :=
  mkEnv (mkSecEntity (IPv4_Set host)).

(** A finder whose [Locate] returns [rcode] and leaves [port] and [host] in
    the response, as the cms finder does for a redirect. *)
Definition finder_answering (rcode port : Z) (host : string) : XrdCmsClient IPv4 :=
  mkCmsClient
    (fun _ _ _ => 0)
    (fun Resp _ _ _ => (rcode, mkErrInfo port host (ErrUCap Resp)))
    (fun Resp _ _ => (0, Resp)).

Definition ENAMETOOLONG : Z := 36.

(** A storage system with [oss.localroot] set to [root]. *)
Definition oss_localroot (root : string) : XrdOss :=
  mkOss (fun path blen =>
           let pfn := (root ++ path)%string in
           if Z.of_nat (String.length pfn) <? blen then (Some pfn, 0)
           else (None, - ENAMETOOLONG)).

(** The response object a request arrives with: no error, the capabilities
    of the client. *)
Definition request_of (ucap : Z) : XrdOucErrInfo := mkErrInfo 0 "" ucap.

Definition plugin_at (finder : XrdCmsClient IPv4) (readOnly : bool)
  : XrdCmsRedirLocal IPv4 :=
  mkPlugin (Some finder) (oss_localroot "/local") readOnly.

(** A logical name of [n] letters below the root directory. *)
Definition long_name (n : nat) : string :=
  String "/"%char (string_of_list_ascii (repeat "a"%char n)).

(** The finder of a manager that cannot locate the file: [SFS_ERROR], the
    text it leaves being read as the address of a host. *)
Definition failing_finder : XrdCmsClient IPv4 :=
  finder_answering SFS_ERROR 3011 "10.0.0.9".

(** The finder redirecting to the data server [host], port 1094. *)
Definition redirecting_finder (host : string) : XrdCmsClient IPv4 :=
  finder_answering SFS_REDIRECT 1094 host.

(** A file system holding one configuration file, with the directive. *)
Definition etc_xrootd : FileSystem :=
  fun filename =>
    if String.eqb filename "/etc/xrootd/xrootd-cms.cfg" then
      Some [["all.role"; "manager"];
            [];
            ["ofs.cmslib"; "libXrdCmsRedirectLocal.so"];
            ["XrdCmsRedirLocal.readonlyredirect"; "true"]]%string
    else None.

(** What [new XrdCmsFinderRMT] builds in the sample installation: a finder
    redirecting to the data server at 10.0.0.9. *)
Definition XrdCmsFinderRMT_sample (Logger : unit) (opMode myPort : Z)
  : XrdCmsClient IPv4 :=
  redirecting_finder "10.0.0.9".

(** * Properties *)

Section GateFacts.

Context {A : Type} `{XrdNetAddrInfo A}.

(** *** What a run of [Locate] amounts to *)

Lemma through_gates_value gs rcode Resp path flags EnvInfo this :
  value (through_gates gs rcode Resp path flags EnvInfo this) =
    (if existsb (rejects (readOnlyredirect this) Resp flags EnvInfo) gs
     then (rcode, Resp)
     else (SFS_REDIRECT,
           setErrInfo (-1) (fst (Lfn2Pfn (theSS this) path 4096)) Resp))
  /\ after (through_gates gs rcode Resp path flags EnvInfo this) = this.
Proof.
  induction gs as [|g gs IH].
  - cbn. destruct (Lfn2Pfn (theSS this) path 4096); auto.
  - destruct IH as [IHv IHs].
    assert (E : value (evaluate Resp flags EnvInfo g this)
                = rejects (readOnlyredirect this) Resp flags EnvInfo g
                /\ after (evaluate Resp flags EnvInfo g this) = this)
      by (destruct g; cbn; auto).
    destruct E as [Ev Es].
    unfold value, after in *. cbn [through_gates existsb]. unfold bind. cbn [fst snd].
    rewrite Ev, Es.
    destruct (rejects (readOnlyredirect this) Resp flags EnvInfo g); cbn; auto.
Qed.

Lemma Locate_in_order_Locate_order Resp path flags EnvInfo this :
  Locate_in_order Locate_order Resp path flags EnvInfo this =
  Locate Resp path flags EnvInfo this.
Proof.
  unfold Locate_in_order, Locate, bind, field. cbn [fst snd].
  destruct (nativeCmsFinder this) as [finder|]; [|reflexivity].
  cbn [calling fst snd].
  destruct (cms_Locate finder Resp path flags EnvInfo) as [rcode Resp'].
  cbn.
  destruct (isPrivate (addr_Set (getErrText Resp'))); cbn; [|reflexivity].
  destruct (isPrivate (addrInfo (secEnv EnvInfo))); cbn; [|reflexivity].
  destruct (Z.land (getUCap Resp') 65535 <? 784); cbn; [reflexivity|].
  destruct (flags >? 512); cbn; [reflexivity|].
  destruct (readOnlyredirect this && negb (flags =? SFS_O_RDONLY)); cbn;
    [reflexivity|].
  destruct (Lfn2Pfn (theSS this) path 4096); reflexivity.
Qed.

Lemma Locate_in_order_run gs Resp path flags EnvInfo this finder :
  nativeCmsFinder this = Some finder ->
  value (Locate_in_order gs Resp path flags EnvInfo this) =
    (if rejected this finder Resp path flags EnvInfo gs
     then RemoteRedirect finder Resp path flags EnvInfo
     else LocalRedirect (theSS this) finder Resp path flags EnvInfo)
  /\ after (Locate_in_order gs Resp path flags EnvInfo this) = this.
Proof.
  intros Hf.
  unfold Locate_in_order, rejected, RemoteRedirect, LocalRedirect, bind, field.
  cbn [fst snd]. rewrite Hf. cbn [calling fst snd].
  destruct (cms_Locate finder Resp path flags EnvInfo) as [rcode Resp'].
  cbn [fst snd].
  exact (through_gates_value gs rcode Resp' path flags EnvInfo this).
Qed.

Lemma Locate_run Resp path flags EnvInfo this finder :
  nativeCmsFinder this = Some finder ->
  value (Locate Resp path flags EnvInfo this) =
    (if rejected this finder Resp path flags EnvInfo Locate_order
     then RemoteRedirect finder Resp path flags EnvInfo
     else LocalRedirect (theSS this) finder Resp path flags EnvInfo)
  /\ after (Locate Resp path flags EnvInfo this) = this.
Proof.
  intros Hf. rewrite <- Locate_in_order_Locate_order.
  now apply Locate_in_order_run.
Qed.

(** The path is translated once when every gate lets the request pass, and
    not at all otherwise. *)
Lemma through_gates_translations gs rcode Resp path flags EnvInfo this :
  translations (calls (through_gates gs rcode Resp path flags EnvInfo this)) =
    if existsb (rejects (readOnlyredirect this) Resp flags EnvInfo) gs
    then 0%nat else 1%nat.
Proof.
  induction gs as [|g gs IH].
  - cbn. now destruct (Lfn2Pfn (theSS this) path 4096).
  - assert (E : value (evaluate Resp flags EnvInfo g this)
                = rejects (readOnlyredirect this) Resp flags EnvInfo g
                /\ after (evaluate Resp flags EnvInfo g this) = this
                /\ filter is_Lfn2Pfn (calls (evaluate Resp flags EnvInfo g this))
                   = [])
      by (destruct g; cbn; auto).
    destruct E as (Ev & Es & Ec).
    unfold translations, value, after, calls in *.
    cbn [through_gates existsb]. unfold bind. cbn [fst snd].
    rewrite filter_app, Ec, Ev, Es. cbn [app].
    destruct (rejects (readOnlyredirect this) Resp flags EnvInfo g); cbn; auto.
Qed.

Lemma Locate_translations Resp path flags EnvInfo this finder :
  nativeCmsFinder this = Some finder ->
  translations (calls (Locate Resp path flags EnvInfo this)) =
    if rejected this finder Resp path flags EnvInfo Locate_order
    then 0%nat else 1%nat.
Proof.
  intros Hf. rewrite <- Locate_in_order_Locate_order.
  unfold Locate_in_order, rejected, bind, field, calls.
  cbn [fst snd]. rewrite Hf. cbn [calling fst snd].
  destruct (cms_Locate finder Resp path flags EnvInfo) as [rcode Resp'].
  cbn [fst snd app].
  exact (through_gates_translations Locate_order rcode Resp' path flags EnvInfo this).
Qed.

Lemma existsb_Permutation {X : Type} (f : X -> bool) (l l' : list X) :
  Permutation l l' -> existsb f l = existsb f l'.
Proof.
  induction 1 as [|x l l' _ IH|x y l|l l' l'' _ IH1 _ IH2]; cbn.
  - reflexivity.
  - now rewrite IH.
  - now destruct (f x), (f y).
  - now rewrite IH1.
Qed.

Lemma rejected_by g readOnly Resp flags (EnvInfo : XrdOucEnv A) gs :
  In g gs -> rejects readOnly Resp flags EnvInfo g = true ->
  existsb (rejects readOnly Resp flags EnvInfo) gs = true.
Proof. intros Hin Hg. apply existsb_exists. now exists g. Qed.

Ltac gate_rejects g :=
  match goal with
  | Hf : nativeCmsFinder ?this = Some ?finder |- value (Locate ?R ?p ?f ?E ?this) = _ =>
      destruct (Locate_run R p f E this finder Hf) as [-> _];
      unfold rejected;
      rewrite (rejected_by g); [reflexivity | cbn; tauto | cbn [rejects]]
  end.

(** C1 (as amended): when the finder's answer has a status other than Ok and
    one of the gates of [Locate] rejects the request, [Locate] returns the
    finder's answer unchanged. *)
Theorem Locate_error_rejected Resp path flags EnvInfo this finder :
  nativeCmsFinder this = Some finder ->
  status_of (fst (cms_Locate finder Resp path flags EnvInfo)) = Error ->
  rejected this finder Resp path flags EnvInfo Locate_order = true ->
  value (Locate Resp path flags EnvInfo this)
  = RemoteRedirect finder Resp path flags EnvInfo.
Proof.
  intros Hf _ Hrej.
  destruct (Locate_run Resp path flags EnvInfo this finder Hf) as [-> _].
  now rewrite Hrej.
Qed.

(** C4: when the located target is not private or the client is not private,
    [Locate] returns the finder's answer, code and response, unchanged. *)
Theorem Locate_public_address Resp path flags EnvInfo this finder :
  nativeCmsFinder this = Some finder ->
  isPrivate (addr_Set (getErrText
               (snd (cms_Locate finder Resp path flags EnvInfo)))) = false
  \/ isPrivate (addrInfo (secEnv EnvInfo)) = false ->
  value (Locate Resp path flags EnvInfo this)
  = RemoteRedirect finder Resp path flags EnvInfo.
Proof.
  intros Hf [Ht|Hc].
  - gate_rejects TargetGate. now rewrite Ht.
  - gate_rejects ClientGate. now rewrite Hc.
Qed.

(** C5: when the low 16 bits of the capabilities in the response are below
    784, [Locate] returns the finder's answer unchanged, whatever the
    addresses, the flags and the policy. *)
Theorem Locate_old_protocol Resp path flags EnvInfo this finder :
  nativeCmsFinder this = Some finder ->
  Z.land (getUCap (snd (cms_Locate finder Resp path flags EnvInfo))) 0x0000ffff
  < 784 ->
  value (Locate Resp path flags EnvInfo this)
  = RemoteRedirect finder Resp path flags EnvInfo.
Proof.
  intros Hf Hv. gate_rejects VersionGate. now apply Z.ltb_lt.
Qed.

(** C6: when the flags exceed 0x200, [Locate] returns the finder's answer
    unchanged, whatever else holds. *)
Theorem Locate_flags_out_of_range Resp path flags EnvInfo this finder :
  nativeCmsFinder this = Some finder ->
  flags > 0x200 ->
  value (Locate Resp path flags EnvInfo this)
  = RemoteRedirect finder Resp path flags EnvInfo.
Proof.
  intros Hf Hfl. gate_rejects FlagsGate. apply Z.gtb_lt. lia.
Qed.

(** C7: with [readOnlyredirect] set, flags other than [SFS_O_RDONLY] make
    [Locate] return the finder's answer unchanged; with flags exactly
    [SFS_O_RDONLY] the policy gate does not reject, and [Locate] answers as it
    does with the policy switched off. *)
Theorem Locate_readonly_policy Resp path flags EnvInfo this finder :
  nativeCmsFinder this = Some finder ->
  readOnlyredirect this = true ->
  (flags <> SFS_O_RDONLY ->
   value (Locate Resp path flags EnvInfo this)
   = RemoteRedirect finder Resp path flags EnvInfo)
  /\ (flags = SFS_O_RDONLY ->
      rejects (readOnlyredirect this)
              (snd (cms_Locate finder Resp path flags EnvInfo))
              flags EnvInfo ReadOnlyGate = false
      /\ value (Locate Resp path flags EnvInfo this)
         = value (Locate Resp path flags EnvInfo
                    (mkPlugin (nativeCmsFinder this) (theSS this) false))).
Proof.
  intros Hf Hro. split.
  - intros Hfl. gate_rejects ReadOnlyGate.
    rewrite Hro. cbn. apply negb_true_iff, Z.eqb_neq, Hfl.
  - intros ->. split.
    + cbn. now rewrite andb_false_r.
    + destruct (Locate_run Resp path SFS_O_RDONLY EnvInfo this finder Hf)
        as [-> _].
      destruct (Locate_run Resp path SFS_O_RDONLY EnvInfo
                  (mkPlugin (nativeCmsFinder this) (theSS this) false) finder Hf)
        as [-> _].
      unfold rejected. cbn. now rewrite !andb_false_r.
Qed.

(** C8: evaluating the gates of [Locate] in any other order gives the same
    return code and the same response as the order of the source, and leaves
    the plug-in as it is. *)
Theorem Locate_gate_order gs Resp path flags EnvInfo this :
  Permutation Locate_order gs ->
  value (Locate_in_order gs Resp path flags EnvInfo this)
  = value (Locate Resp path flags EnvInfo this)
  /\ after (Locate_in_order gs Resp path flags EnvInfo this)
     = after (Locate Resp path flags EnvInfo this).
Proof.
  intros Hp. destruct (nativeCmsFinder this) as [finder|] eqn:Hf.
  - destruct (Locate_in_order_run gs Resp path flags EnvInfo this finder Hf)
      as [-> ->].
    destruct (Locate_run Resp path flags EnvInfo this finder Hf) as [-> ->].
    unfold rejected.
    now rewrite (existsb_Permutation _ _ _ Hp).
  - unfold Locate_in_order, Locate, bind, field. cbn [fst snd].
    rewrite Hf. auto.
Qed.

(** C9: two calls of [Locate] with the same request and client, the same
    answer of the finder, the same storage system and the same policy return
    the same code and response; a call leaves the plug-in unchanged, so a
    second call on the same object is such a call. *)
Theorem Locate_stateless Resp path flags EnvInfo this1 this2 :
  located this1 Resp path flags EnvInfo = located this2 Resp path flags EnvInfo ->
  theSS this1 = theSS this2 ->
  readOnlyredirect this1 = readOnlyredirect this2 ->
  value (Locate Resp path flags EnvInfo this1)
  = value (Locate Resp path flags EnvInfo this2)
  /\ after (Locate Resp path flags EnvInfo this1) = this1
  /\ value (Locate Resp path flags EnvInfo
              (after (Locate Resp path flags EnvInfo this1)))
     = value (Locate Resp path flags EnvInfo this1).
Proof.
  intros Hl Hs Hr.
  assert (Hafter : forall this, after (Locate Resp path flags EnvInfo this) = this).
  { intros this. destruct (nativeCmsFinder this) as [finder|] eqn:Hf.
    - now destruct (Locate_run Resp path flags EnvInfo this finder Hf).
    - unfold Locate, bind, field. cbn [fst snd]. now rewrite Hf. }
  split; [|split; [apply Hafter | now rewrite Hafter]].
  unfold located in Hl.
  destruct (nativeCmsFinder this1) as [f1|] eqn:Hf1,
           (nativeCmsFinder this2) as [f2|] eqn:Hf2; cbn in Hl; try discriminate.
  - injection Hl as Hl.
    destruct (Locate_run Resp path flags EnvInfo this1 f1 Hf1) as [-> _].
    destruct (Locate_run Resp path flags EnvInfo this2 f2 Hf2) as [-> _].
    unfold rejected, RemoteRedirect, LocalRedirect.
    now rewrite Hl, Hs, Hr.
  - unfold Locate, bind, field. cbn [fst snd]. now rewrite Hf1, Hf2.
Qed.

(** C10: without a finder, [Locate] returns 0 and the response it was given,
    calls no collaborator (no finder, no address classification, no path
    translation) and leaves the plug-in as it is; so does [Space]. *)
Theorem Locate_Space_without_finder ss readOnly Resp path flags
    (EnvInfo : XrdOucEnv A) :
  Locate Resp path flags EnvInfo (mkPlugin None ss readOnly)
  = ((0, Resp), mkPlugin None ss readOnly, [])
  /\ Space Resp path EnvInfo (mkPlugin None ss readOnly)
     = ((0, Resp), mkPlugin None ss readOnly, []).
Proof. split; reflexivity. Qed.

End GateFacts.

(** ** Configuration *)

Section ConfigFacts.

Context {A : Type}.

Lemma tolower_not_X c : tolower c <> "X"%char.
Proof. destruct c as [[] [] [] [] [] [] [] []]; vm_compute; discriminate. Qed.

(** A word in lower case never compares equal to the directive as the source
    spells it, with capital letters. *)
Lemma lowcase_not_directive word :
  strcmp_eq0 (lowcase word) "XrdCmsRedirLocal.readonlyredirect" = false.
Proof.
  unfold strcmp_eq0. apply String.eqb_neq.
  destruct word as [|c word]; cbn; [discriminate|].
  intros E. injection E as E _. now apply tolower_not_X in E.
Qed.

Lemma loadConfig_loop_run Config (this : XrdCmsRedirLocal A) :
  loadConfig_loop Config this = (Closed, this, []).
Proof.
  induction Config as [|[|word words] Config IH]; cbn [loadConfig_loop]; auto.
  now rewrite lowcase_not_directive.
Qed.

(** Whatever the file holds, [loadConfig] leaves the plug-in as it found it
    and never builds a string from nil. *)
Lemma loadConfig_run fs filename (this : XrdCmsRedirLocal A) :
  after (loadConfig fs filename this) = this
  /\ value (loadConfig fs filename this) <> NilString.
Proof.
  unfold loadConfig. destruct (fs filename) as [Config|].
  - rewrite loadConfig_loop_run. cbn. split; [reflexivity | discriminate].
  - cbn. split; [reflexivity | discriminate].
Qed.

(** C3 (the code at the failing input): a configuration file with the line
    [XrdCmsRedirLocal.readonlyredirect true] is read to its end, and
    [readOnlyredirect] is still false, as the constructor left it. *)
Theorem loadConfig_directive_ignored (finder : XrdCmsClient A) ss :
  etc_xrootd "/etc/xrootd/xrootd-cms.cfg"%string
  = Some [["all.role"; "manager"]; [];
          ["ofs.cmslib"; "libXrdCmsRedirectLocal.so"];
          ["XrdCmsRedirLocal.readonlyredirect"; "true"]]%string
  /\ value (loadConfig etc_xrootd "/etc/xrootd/xrootd-cms.cfg"%string
              (constructor finder ss)) = Closed
  /\ readOnlyredirect
       (after (loadConfig etc_xrootd "/etc/xrootd/xrootd-cms.cfg"%string
                 (constructor finder ss))) = false.
Proof. repeat split. Qed.

End ConfigFacts.

(** ** The sample installation *)

(** The examples of section 8 of the spec. *)
Example example_1 :
  value (Locate (request_of (Z.lor 0x0400 784)) "/data/f" SFS_O_RDONLY
           (client_at "10.0.0.5") (plugin_at (redirecting_finder "10.0.0.9") false))
  = (SFS_REDIRECT, mkErrInfo (-1) "/local/data/f" (Z.lor 0x0400 784)).
Proof. reflexivity. Qed.

Example example_2 :
  value (Locate (request_of (Z.lor 0x0400 784)) "/data/f" SFS_O_RDONLY
           (client_at "10.0.0.5")
           (plugin_at (redirecting_finder "203.0.113.7") false))
  = (SFS_REDIRECT, mkErrInfo 1094 "203.0.113.7" (Z.lor 0x0400 784)).
Proof. reflexivity. Qed.

Example example_3 :
  value (Locate (request_of (Z.lor 0x0400 784)) "/data/f" SFS_O_RDONLY
           (client_at "198.51.100.2")
           (plugin_at (redirecting_finder "10.0.0.9") false))
  = (SFS_REDIRECT, mkErrInfo 1094 "10.0.0.9" (Z.lor 0x0400 784)).
Proof. reflexivity. Qed.

Example example_4 :
  value (Locate (request_of 700) "/data/f" SFS_O_RDONLY
           (client_at "10.0.0.5") (plugin_at (redirecting_finder "10.0.0.9") false))
  = (SFS_REDIRECT, mkErrInfo 1094 "10.0.0.9" 700).
Proof. reflexivity. Qed.

Example example_5 :
  value (Locate (request_of 784) "/data/f" (Z.lor SFS_O_WRONLY SFS_O_CREAT)
           (client_at "10.0.0.5") (plugin_at (redirecting_finder "10.0.0.9") true))
  = (SFS_REDIRECT, mkErrInfo 1094 "10.0.0.9" 784)
  /\ value (Locate (request_of 784) "/data/f" SFS_O_RDONLY
              (client_at "10.0.0.5")
              (plugin_at (redirecting_finder "10.0.0.9") true))
     = (SFS_REDIRECT, mkErrInfo (-1) "/local/data/f" 784).
Proof. split; reflexivity. Qed.

(** C1 (counterexample): the finder returns [SFS_ERROR]; target text and
    client are private, the capabilities and flags pass, and [Locate] answers
    with the redirect to the local path instead of the finder's answer. *)
Lemma Locate_error_redirected_locally :
  status_of (fst (cms_Locate failing_finder (request_of 784) "/data/f"
                    SFS_O_RDONLY (client_at "10.0.0.5"))) = Error
  /\ value (Locate (request_of 784) "/data/f" SFS_O_RDONLY (client_at "10.0.0.5")
              (plugin_at failing_finder false))
     = (SFS_REDIRECT, mkErrInfo (-1) "/local/data/f" 784)
  /\ value (Locate (request_of 784) "/data/f" SFS_O_RDONLY (client_at "10.0.0.5")
              (plugin_at failing_finder false))
     <> RemoteRedirect failing_finder (request_of 784) "/data/f" SFS_O_RDONLY
          (client_at "10.0.0.5").
Proof. repeat split. vm_compute. discriminate. Qed.

Lemma Locate_error_rejected_witness :
  value (Locate (request_of 784) "/data/f" SFS_O_RDONLY (client_at "198.51.100.2")
           (plugin_at failing_finder false))
  = RemoteRedirect failing_finder (request_of 784) "/data/f" SFS_O_RDONLY
      (client_at "198.51.100.2").
Proof. apply Locate_error_rejected; reflexivity. Defined.

(** C2 (the code at the failing input): local root and name together do not
    fit the buffer of 4096 bytes, [Lfn2Pfn] returns nil and an error code, and
    [Locate] still returns [SFS_REDIRECT], with an empty path in the response,
    not the finder's answer. *)
Theorem Locate_untranslated_name :
  Lfn2Pfn (oss_localroot "/local") (long_name 4095) 4096
  = (None, - ENAMETOOLONG)
  /\ rejected (plugin_at (redirecting_finder "10.0.0.9") false)
       (redirecting_finder "10.0.0.9") (request_of 784) (long_name 4095)
       SFS_O_RDONLY (client_at "10.0.0.5") Locate_order = false
  /\ value (Locate (request_of 784) (long_name 4095) SFS_O_RDONLY
              (client_at "10.0.0.5")
              (plugin_at (redirecting_finder "10.0.0.9") false))
     = (SFS_REDIRECT, mkErrInfo (-1) "" 784)
  /\ value (Locate (request_of 784) (long_name 4095) SFS_O_RDONLY
              (client_at "10.0.0.5")
              (plugin_at (redirecting_finder "10.0.0.9") false))
     <> RemoteRedirect (redirecting_finder "10.0.0.9") (request_of 784)
          (long_name 4095) SFS_O_RDONLY (client_at "10.0.0.5").
Proof.
  repeat split; try (vm_compute; reflexivity).
  vm_compute. discriminate.
Qed.

Lemma Locate_public_address_witness :
  value (Locate (request_of 784) "/data/f" SFS_O_RDONLY (client_at "10.0.0.5")
           (plugin_at (redirecting_finder "203.0.113.7") false))
  = RemoteRedirect (redirecting_finder "203.0.113.7") (request_of 784) "/data/f"
      SFS_O_RDONLY (client_at "10.0.0.5").
Proof. apply Locate_public_address; [reflexivity | left; reflexivity]. Defined.

Lemma Locate_old_protocol_witness :
  value (Locate (request_of (Z.lor 0x10000 700)) "/data/f" SFS_O_RDONLY
           (client_at "10.0.0.5") (plugin_at (redirecting_finder "10.0.0.9") false))
  = RemoteRedirect (redirecting_finder "10.0.0.9") (request_of (Z.lor 0x10000 700))
      "/data/f" SFS_O_RDONLY (client_at "10.0.0.5").
Proof. apply Locate_old_protocol; [reflexivity | vm_compute; reflexivity]. Defined.

Lemma Locate_flags_out_of_range_witness :
  value (Locate (request_of 784) "/data/f" (Z.lor SFS_O_WRONLY SFS_O_TRUNC)
           (client_at "10.0.0.5") (plugin_at (redirecting_finder "10.0.0.9") false))
  = RemoteRedirect (redirecting_finder "10.0.0.9") (request_of 784) "/data/f"
      (Z.lor SFS_O_WRONLY SFS_O_TRUNC) (client_at "10.0.0.5").
Proof. apply Locate_flags_out_of_range; [reflexivity | vm_compute; reflexivity]. Defined.

Lemma Locate_readonly_policy_witness :
  value (Locate (request_of 784) "/data/f" (Z.lor SFS_O_WRONLY SFS_O_CREAT)
           (client_at "10.0.0.5") (plugin_at (redirecting_finder "10.0.0.9") true))
  = RemoteRedirect (redirecting_finder "10.0.0.9") (request_of 784) "/data/f"
      (Z.lor SFS_O_WRONLY SFS_O_CREAT) (client_at "10.0.0.5")
  /\ value (Locate (request_of 784) "/data/f" SFS_O_RDONLY
              (client_at "10.0.0.5")
              (plugin_at (redirecting_finder "10.0.0.9") true))
     = value (Locate (request_of 784) "/data/f" SFS_O_RDONLY
                (client_at "10.0.0.5")
                (plugin_at (redirecting_finder "10.0.0.9") false)).
Proof.
  split.
  - apply (proj1 (Locate_readonly_policy (request_of 784) "/data/f"
                    (Z.lor SFS_O_WRONLY SFS_O_CREAT) (client_at "10.0.0.5")
                    (plugin_at (redirecting_finder "10.0.0.9") true)
                    (redirecting_finder "10.0.0.9") eq_refl eq_refl)).
    vm_compute. discriminate.
  - apply (proj2 (Locate_readonly_policy (request_of 784) "/data/f"
                    SFS_O_RDONLY (client_at "10.0.0.5")
                    (plugin_at (redirecting_finder "10.0.0.9") true)
                    (redirecting_finder "10.0.0.9") eq_refl eq_refl)).
    reflexivity.
Defined.

Lemma Locate_gate_order_witness :
  value (Locate_in_order
           [ReadOnlyGate; FlagsGate; VersionGate; ClientGate; TargetGate]
           (request_of 784) "/data/f" SFS_O_RDONLY (client_at "198.51.100.2")
           (plugin_at (redirecting_finder "10.0.0.9") true))
  = value (Locate (request_of 784) "/data/f" SFS_O_RDONLY
             (client_at "198.51.100.2")
             (plugin_at (redirecting_finder "10.0.0.9") true)).
Proof.
  apply (proj1 (Locate_gate_order
                  [ReadOnlyGate; FlagsGate; VersionGate; ClientGate; TargetGate]
                  (request_of 784) "/data/f" SFS_O_RDONLY
                  (client_at "198.51.100.2")
                  (plugin_at (redirecting_finder "10.0.0.9") true)
                  (Permutation_rev Locate_order))).
Defined.

Lemma Locate_stateless_witness :
  value (Locate (request_of 784) "/data/f" SFS_O_RDONLY (client_at "10.0.0.5")
           (plugin_at (redirecting_finder "10.0.0.9") false))
  = value (Locate (request_of 784) "/data/f" SFS_O_RDONLY (client_at "10.0.0.5")
             (plugin_at (mkCmsClient (fun _ _ _ => 1)
                           (cms_Locate (redirecting_finder "10.0.0.9"))
                           (fun Resp _ _ => (1, Resp))) false)).
Proof. apply Locate_stateless; reflexivity. Defined.

(** ** The plug-in in use *)

Section UseFacts.

Context {A : Type} `{XrdNetAddrInfo A}.

Lemma passes_iff this finder Resp path flags (EnvInfo : XrdOucEnv A) :
  rejected this finder Resp path flags EnvInfo Locate_order = false
  <-> qualifies (readOnlyredirect this)
        (snd (cms_Locate finder Resp path flags EnvInfo)) flags EnvInfo.
Proof.
  unfold rejected, qualifies, Locate_order. cbn [existsb rejects].
  rewrite !orb_false_iff, !negb_false_iff, Z.ltb_ge, andb_false_iff,
    negb_false_iff, Z.eqb_eq, Z.gtb_ltb, Z.ltb_ge.
  intuition congruence.
Qed.

(** X1: when target and client are private, the low 16 bits of the
    capabilities are at least 784, the flags are at most 0x200 and the
    read-only policy is off or the flags are [SFS_O_RDONLY], [Locate] returns
    [SFS_REDIRECT] and a response with code -1, the translated path as text
    and the capabilities the finder left. *)
Theorem Locate_local_redirect Resp path flags EnvInfo this finder :
  nativeCmsFinder this = Some finder ->
  qualifies (readOnlyredirect this)
    (snd (cms_Locate finder Resp path flags EnvInfo)) flags EnvInfo ->
  value (Locate Resp path flags EnvInfo this)
  = (SFS_REDIRECT,
     {| ErrCode := -1;
        ErrText := match fst (Lfn2Pfn (theSS this) path 4096) with
                   | Some ppath => ppath
                   | None => EmptyString
                   end;
        ErrUCap := getUCap (snd (cms_Locate finder Resp path flags EnvInfo)) |}).
Proof.
  intros Hf Hq. apply passes_iff in Hq.
  destruct (Locate_run Resp path flags EnvInfo this finder Hf) as [-> _].
  now rewrite Hq.
Qed.

(** X2: [Locate] calls [Lfn2Pfn] at most once, and it calls it exactly when
    all the conditions of the local redirect hold. *)
Theorem Locate_translates_iff Resp path flags EnvInfo this finder :
  nativeCmsFinder this = Some finder ->
  (translations (calls (Locate Resp path flags EnvInfo this)) <= 1)%nat
  /\ (translations (calls (Locate Resp path flags EnvInfo this)) = 1%nat
      <-> qualifies (readOnlyredirect this)
            (snd (cms_Locate finder Resp path flags EnvInfo)) flags EnvInfo).
Proof.
  intros Hf. rewrite (Locate_translations Resp path flags EnvInfo this finder Hf).
  rewrite <- passes_iff.
  destruct (rejected this finder Resp path flags EnvInfo Locate_order);
    split; try lia; split; congruence.
Qed.

(** X3: the calls of [Locate], in order: the finder first, with the path and
    flags of the request; then the target address is set from the text of
    the answer and classified; the client is classified only when the target
    is private; [Lfn2Pfn] comes last, with the path of the request and a
    buffer of 4096 bytes, and only when no gate rejects. *)
Theorem Locate_call_log Resp path flags EnvInfo finder ss readOnly :
  calls (Locate Resp path flags EnvInfo (mkPlugin (Some finder) ss readOnly))
  = CallLocate path flags
    :: CallSet (getErrText (snd (cms_Locate finder Resp path flags EnvInfo)))
    :: CallIsPrivate Target
    :: (if isPrivate (addr_Set (getErrText
                        (snd (cms_Locate finder Resp path flags EnvInfo))))
        then CallIsPrivate Client
             :: (if rejected (mkPlugin (Some finder) ss readOnly) finder
                      Resp path flags EnvInfo Locate_order
                 then []
                 else [CallLfn2Pfn path 4096])
        else []).
Proof.
  unfold Locate, rejected, Locate_order, bind, field, calls.
  cbn [fst snd nativeCmsFinder calling existsb rejects readOnlyredirect].
  destruct (cms_Locate finder Resp path flags EnvInfo) as [rcode Resp'].
  cbn [fst snd app].
  destruct (isPrivate (addr_Set (getErrText Resp'))); cbn; [|reflexivity].
  destruct (isPrivate (addrInfo (secEnv EnvInfo))); cbn; [|reflexivity].
  destruct (Z.land (getUCap Resp') 65535 <? 784); cbn; [reflexivity|].
  destruct (flags >? 512); cbn; [reflexivity|].
  destruct (readOnly && negb (flags =? SFS_O_RDONLY)); cbn; [reflexivity|].
  destruct (Lfn2Pfn ss path 4096); reflexivity.
Qed.

(** X4: switching the read-only policy on only takes local redirects away: a
    request that gets the finder's answer with the policy off gets it with
    the policy on. *)
Theorem Locate_policy_restricts Resp path flags EnvInfo finder ss :
  value (Locate Resp path flags EnvInfo (mkPlugin (Some finder) ss false))
  = RemoteRedirect finder Resp path flags EnvInfo ->
  value (Locate Resp path flags EnvInfo (mkPlugin (Some finder) ss true))
  = RemoteRedirect finder Resp path flags EnvInfo.
Proof.
  destruct (Locate_run Resp path flags EnvInfo (mkPlugin (Some finder) ss false)
              finder eq_refl) as [-> _].
  destruct (Locate_run Resp path flags EnvInfo (mkPlugin (Some finder) ss true)
              finder eq_refl) as [-> _].
  destruct (rejected (mkPlugin (Some finder) ss true) finder Resp path flags
              EnvInfo Locate_order) eqn:Hon; [reflexivity|].
  assert (Hoff : rejected (mkPlugin (Some finder) ss false) finder Resp path
                   flags EnvInfo Locate_order = false).
  { apply passes_iff. apply passes_iff in Hon.
    unfold qualifies in *. cbn [readOnlyredirect] in *. tauto. }
  rewrite Hoff. unfold LocalRedirect. cbn [theSS]. auto.
Qed.

(** X5: whether [Locate] redirects to the local path depends on the finder's
    answer only through the text of the response and the low 16 bits of the
    capabilities: not on the return code, nor on the code in the response,
    nor on the upper bits of the capabilities. *)
Theorem Locate_decision_inputs Resp path flags EnvInfo finder1 finder2 ss readOnly :
  getErrText (snd (cms_Locate finder1 Resp path flags EnvInfo))
  = getErrText (snd (cms_Locate finder2 Resp path flags EnvInfo)) ->
  Z.land (getUCap (snd (cms_Locate finder1 Resp path flags EnvInfo))) 0x0000ffff
  = Z.land (getUCap (snd (cms_Locate finder2 Resp path flags EnvInfo))) 0x0000ffff ->
  translations (calls (Locate Resp path flags EnvInfo
                         (mkPlugin (Some finder1) ss readOnly)))
  = translations (calls (Locate Resp path flags EnvInfo
                           (mkPlugin (Some finder2) ss readOnly)))
  /\ fst (value (Locate Resp path flags EnvInfo
                   (mkPlugin (Some finder1) ss readOnly)))
     = (if rejected (mkPlugin (Some finder2) ss readOnly) finder2 Resp path
             flags EnvInfo Locate_order
        then fst (cms_Locate finder1 Resp path flags EnvInfo)
        else SFS_REDIRECT).
Proof.
  intros Ht Hc.
  assert (Hr : rejected (mkPlugin (Some finder1) ss readOnly) finder1 Resp path
                 flags EnvInfo Locate_order
               = rejected (mkPlugin (Some finder2) ss readOnly) finder2 Resp path
                   flags EnvInfo Locate_order).
  { unfold rejected, Locate_order. cbn [existsb rejects readOnlyredirect].
    now rewrite Ht, Hc. }
  rewrite (Locate_translations Resp path flags EnvInfo
             (mkPlugin (Some finder1) ss readOnly) finder1 eq_refl).
  rewrite (Locate_translations Resp path flags EnvInfo
             (mkPlugin (Some finder2) ss readOnly) finder2 eq_refl).
  destruct (Locate_run Resp path flags EnvInfo
              (mkPlugin (Some finder1) ss readOnly) finder1 eq_refl) as [-> _].
  rewrite Hr. split; [reflexivity|].
  now destruct (rejected _ finder2 _ _ _ _ _).
Qed.

Lemma Configure_run fs cfn Parms (EnvInfo : XrdOucEnv A) this :
  Configure fs cfn Parms EnvInfo this
  = match nativeCmsFinder this with
    | Some finder =>
        (Some (cms_Configure finder cfn Parms EnvInfo), this, [CallConfigure cfn])
    | None => (Some 0, this, [])
    end.
Proof.
  unfold Configure, loadConfig, bind, field.
  destruct (fs cfn) as [Config|]; rewrite ?loadConfig_loop_run; cbn [fst snd ret];
    destruct (nativeCmsFinder this); reflexivity.
Qed.

Lemma Locate_forwarded Resp path flags EnvInfo this finder :
  nativeCmsFinder this = Some finder ->
  filter to_finder (calls (Locate Resp path flags EnvInfo this))
  = [CallLocate path flags].
Proof.
  intros Hf. unfold Locate, bind, field, calls. cbn [fst snd]. rewrite Hf.
  cbn [calling fst snd].
  destruct (cms_Locate finder Resp path flags EnvInfo) as [rcode Resp'].
  cbn [fst snd app].
  destruct (isPrivate (addr_Set (getErrText Resp'))); cbn; [|reflexivity].
  destruct (isPrivate (addrInfo (secEnv EnvInfo))); cbn; [|reflexivity].
  destruct (Z.land (getUCap Resp') 65535 <? 784); cbn; [reflexivity|].
  destruct (flags >? 512); cbn; [reflexivity|].
  destruct (readOnlyredirect this && negb (flags =? SFS_O_RDONLY)); cbn;
    [reflexivity|].
  destruct (Lfn2Pfn (theSS this) path 4096); reflexivity.
Qed.

(** X6: whatever the file system holds under the name, [loadConfig] changes
    no field of the plug-in, calls no collaborator, and ends by closing the
    stream or, when the file cannot be opened, by returning at once. *)
Theorem loadConfig_changes_nothing fs filename (this : XrdCmsRedirLocal A) :
  loadConfig fs filename this
  = (match fs filename with Some _ => Closed | None => NotOpened end, this, []).
Proof.
  unfold loadConfig. destruct (fs filename) as [Config|]; [|reflexivity].
  apply loadConfig_loop_run.
Qed.

(** X7: [Configure] hands the file name, the parameters and the environment
    on to the finder and returns what the finder returns, whether or not the
    file could be opened; without a finder it returns 0.  The plug-in is left
    as it was. *)
Theorem Configure_delegates fs cfn Parms (EnvInfo : XrdOucEnv A) finder ss readOnly :
  Configure fs cfn Parms EnvInfo (mkPlugin (Some finder) ss readOnly)
  = (Some (cms_Configure finder cfn Parms EnvInfo),
     mkPlugin (Some finder) ss readOnly, [CallConfigure cfn])
  /\ Configure fs cfn Parms EnvInfo (mkPlugin None ss readOnly)
     = (Some 0, mkPlugin None ss readOnly, []).
Proof. split; apply Configure_run. Qed.

Lemma serve_run (r : Request) this finder :
  nativeCmsFinder this = Some finder ->
  after (serve r this) = this
  /\ filter to_finder (calls (serve r this)) = [forwarded r].
Proof.
  intros Hf.
  destruct r as [fs cfn Parms EnvInfo|Resp path flags EnvInfo|Resp path EnvInfo].
  - unfold serve, bind, after, calls. rewrite Configure_run, Hf.
    split; reflexivity.
  - pose proof (Locate_forwarded Resp path flags EnvInfo this finder Hf) as Hc.
    pose proof (proj2 (Locate_run Resp path flags EnvInfo this finder Hf)) as Ha.
    unfold serve, bind, after, calls in *. cbn [fst snd ret].
    rewrite Ha, app_nil_r, Hc. split; reflexivity.
  - unfold serve, Space, bind, field, after, calls. cbn [fst snd].
    rewrite Hf. split; reflexivity.
Qed.

(** X8: no sequence of [Configure], [Locate] and [Space] calls changes the
    plug-in that [XrdCmsGetClient] created: it keeps its finder and its
    storage system, and [readOnlyredirect] stays false.  Each call reaches
    the finder once, in the order of the calls. *)
Theorem serve_all_invariant {L : Type} (rs : list Request)
    (XrdCmsFinderRMT : L -> Z -> Z -> XrdCmsClient A) Logger opMode myPort ss :
  after (serve_all rs (XrdCmsGetClient XrdCmsFinderRMT Logger opMode myPort ss))
  = mkPlugin (Some (XrdCmsFinderRMT Logger opMode myPort)) ss false
  /\ filter to_finder
       (calls (serve_all rs
                 (XrdCmsGetClient XrdCmsFinderRMT Logger opMode myPort ss)))
     = map forwarded rs.
Proof.
  unfold XrdCmsGetClient, constructor.
  induction rs as [|r rs [IHa IHc]]; [split; reflexivity|].
  destruct (serve_run r (mkPlugin (Some (XrdCmsFinderRMT Logger opMode myPort))
                           ss false) _ eq_refl) as [Ha Hc].
  unfold after, calls in *. cbn [serve_all map]. unfold bind. cbn [fst snd].
  rewrite Ha, filter_app, Hc, IHa, IHc. split; reflexivity.
Qed.

(** X9: a plug-in created by [XrdCmsGetClient] and then configured, from
    whatever file, redirects to the local path every request with private
    target and client, capabilities of at least 784 in the low 16 bits and
    flags up to 0x200: opens for writing too, whatever the file says about
    [readonlyredirect]. *)
Theorem configured_Locate {L : Type} fs cfn Parms Env0 Resp path flags EnvInfo
    (XrdCmsFinderRMT : L -> Z -> Z -> XrdCmsClient A) Logger opMode myPort ss :
  qualifies false
    (snd (cms_Locate (XrdCmsFinderRMT Logger opMode myPort) Resp path flags
            EnvInfo)) flags EnvInfo ->
  value (Locate Resp path flags EnvInfo
           (after (Configure fs cfn Parms Env0
                     (XrdCmsGetClient XrdCmsFinderRMT Logger opMode myPort ss))))
  = LocalRedirect ss (XrdCmsFinderRMT Logger opMode myPort) Resp path flags
      EnvInfo.
Proof.
  intros Hq. unfold XrdCmsGetClient, constructor.
  rewrite Configure_run. cbn [nativeCmsFinder].
  unfold after. cbn [fst snd].
  destruct (Locate_run Resp path flags EnvInfo
              (mkPlugin (Some (XrdCmsFinderRMT Logger opMode myPort)) ss false)
              _ eq_refl) as [-> _].
  assert (Hp : rejected (mkPlugin (Some (XrdCmsFinderRMT Logger opMode myPort))
                          ss false)
                 (XrdCmsFinderRMT Logger opMode myPort) Resp path flags EnvInfo
                 Locate_order = false) by now apply passes_iff.
  now rewrite Hp.
Qed.

End UseFacts.

(** *** The sample installation in use *)

Ltac qualifies_here :=
  unfold qualifies; repeat split;
  try reflexivity; try (vm_compute; discriminate); try (left; reflexivity).

Lemma Locate_local_redirect_witness :
  value (Locate (request_of 784) "/data/f" SFS_O_WRONLY (client_at "10.0.0.5")
           (plugin_at (redirecting_finder "10.0.0.9") false))
  = (SFS_REDIRECT, mkErrInfo (-1) "/local/data/f" 784).
Proof.
  apply (Locate_local_redirect (request_of 784) "/data/f" SFS_O_WRONLY
           (client_at "10.0.0.5") (plugin_at (redirecting_finder "10.0.0.9") false)
           (redirecting_finder "10.0.0.9") eq_refl).
  qualifies_here.
Defined.

Lemma Locate_translates_iff_witness :
  translations
    (calls (Locate (request_of 784) "/data/f" SFS_O_RDONLY (client_at "10.0.0.5")
              (plugin_at (redirecting_finder "10.0.0.9") true))) = 1%nat.
Proof.
  apply (proj2 (Locate_translates_iff (request_of 784) "/data/f" SFS_O_RDONLY
                  (client_at "10.0.0.5")
                  (plugin_at (redirecting_finder "10.0.0.9") true)
                  (redirecting_finder "10.0.0.9") eq_refl)).
  unfold qualifies; repeat split;
    try reflexivity; try (vm_compute; discriminate); right; reflexivity.
Defined.

Lemma Locate_policy_restricts_witness :
  value (Locate (request_of 784) "/data/f" (Z.lor SFS_O_RDWR SFS_O_TRUNC)
           (client_at "10.0.0.5")
           (mkPlugin (Some (redirecting_finder "10.0.0.9"))
                     (oss_localroot "/local") true))
  = RemoteRedirect (redirecting_finder "10.0.0.9") (request_of 784) "/data/f"
      (Z.lor SFS_O_RDWR SFS_O_TRUNC) (client_at "10.0.0.5").
Proof. apply Locate_policy_restricts. reflexivity. Defined.

Lemma Locate_decision_inputs_witness :
  translations
    (calls (Locate (request_of 784) "/data/f" SFS_O_RDONLY (client_at "10.0.0.5")
              (mkPlugin (Some (redirecting_finder "10.0.0.9"))
                        (oss_localroot "/local") false)))
  = translations
      (calls (Locate (request_of 784) "/data/f" SFS_O_RDONLY
                (client_at "10.0.0.5")
                (mkPlugin
                   (Some (mkCmsClient
                            (fun _ _ _ => 0)
                            (fun Resp _ _ _ =>
                               (SFS_ERROR,
                                mkErrInfo 3011 "10.0.0.9"
                                          (ErrUCap Resp + 0x10000)))
                            (fun Resp _ _ => (0, Resp))))
                   (oss_localroot "/local") false))).
Proof.
  apply (proj1 (Locate_decision_inputs (request_of 784) "/data/f" SFS_O_RDONLY
                  (client_at "10.0.0.5") (redirecting_finder "10.0.0.9")
                  (mkCmsClient
                     (fun _ _ _ => 0)
                     (fun Resp _ _ _ =>
                        (SFS_ERROR,
                         mkErrInfo 3011 "10.0.0.9" (ErrUCap Resp + 0x10000)))
                     (fun Resp _ _ => (0, Resp)))
                  (oss_localroot "/local") false eq_refl eq_refl)).
Defined.

Lemma configured_Locate_witness :
  value (Locate (request_of 784) "/data/f" SFS_O_WRONLY (client_at "10.0.0.5")
           (after (Configure etc_xrootd "/etc/xrootd/xrootd-cms.cfg" None
                     (client_at "10.0.0.5")
                     (XrdCmsGetClient XrdCmsFinderRMT_sample tt 0 1094
                        (oss_localroot "/local")))))
  = LocalRedirect (oss_localroot "/local") (XrdCmsFinderRMT_sample tt 0 1094)
      (request_of 784) "/data/f" SFS_O_WRONLY (client_at "10.0.0.5").
Proof. apply configured_Locate. qualifies_here. Defined.
